(** * BRIAR service skeleton: a shallow embedding of [briar/service.py]

    The Python module defines the class [BRIARService] (a gRPC servicer whose
    constructor reads the process environment and whose request handlers are
    mostly placeholders) and the function [serve], which builds a gRPC server
    around one service instance and then sleeps forever.

    Conventions of the embedding:
    - a Python call is a computation [Py A]: it receives the text printed so
      far, and gives back either a returned value or a raised exception,
      together with the text printed once it stops (what was printed before
      an exception stays printed);
    - [os.environ] is a finite map from names to values;
    - [os.path] is its POSIX flavour ([posixpath]);
    - the names [briar_pb2] and [srvc_pb2] are taken to be bound to the
      generated message modules (the first one through the star import of
      [briar.media_converters]). *)

From Stdlib Require Import ZArith Ascii String.
From stdpp Require Import base gmap strings list.

Local Open Scope string_scope.

(** ** Python computations *)

(** The two exception classes the module raises. *)
Inductive PyExc : Type :=
  | EnvironmentError (msg : string)
  | NotImplementedError.

(** The class name of an exception, as [type(e).__name__] gives it. *)
Definition exc_name (e : PyExc) : string :=
  match e with
  | EnvironmentError _ => "EnvironmentError"
  | NotImplementedError => "NotImplementedError"
  end.

Inductive Outcome (A : Type) : Type :=
  | Return (a : A)
  | Raise (e : PyExc).
Arguments Return {A} a.
Arguments Raise {A} e.

(** Lines written to standard output, oldest first. *)
Definition Stdout : Type := list string.

Definition Py (A : Type) : Type := Stdout → Outcome A * Stdout.

Definition ret {A} (a : A) : Py A := λ out, (Return a, out).

Definition raise {A} (e : PyExc) : Py A := λ out, (Raise e, out).

Definition bind {A B} (c : Py A) (k : A → Py B) : Py B :=
  λ out,
    match c out with
    | (Return a, out') => k a out'
    | (Raise e, out') => (Raise e, out')
    end.

Notation "'let!' x ':=' c 'in' k" := (bind c (λ x, k))
  (at level 10, x binder, c at level 100, k at level 200, only parsing).
Notation "c >>> k" := (bind c (λ _, k))
  (at level 100, k at level 200, right associativity, only parsing).

Definition print (line : string) : Py unit := λ out, (Return tt, (out ++ [line])%list).

(** ** [os.path.join] (POSIX) *)

Definition sep : string := "/".

Fixpoint endswith_sep (path : string) : bool :=
  match path with
  | EmptyString => false
  | String c EmptyString => bool_decide (c = "/"%char)
  | String _ rest => endswith_sep rest
  end.

Definition startswith_sep (b : string) : bool :=
  match b with
  | String c _ => bool_decide (c = "/"%char)
  | EmptyString => false
  end.

Definition is_empty (path : string) : bool :=
  match path with EmptyString => true | _ => false end.

(** One round of the loop of [posixpath.join]: an absolute component
    replaces what was joined so far, otherwise it is appended, with a
    separator unless the path is empty or already ends with one. *)
Definition join_step (path b : string) : string :=
  if startswith_sep b then b
  else if is_empty path || endswith_sep path then path +:+ b
  else path +:+ sep +:+ b.

Definition os_path_join (a : string) (p : list string) : string :=
  foldl join_step a p.

(** ** Messages *)

Module briar_pb2.

(** [briar_pb2.APIVersion(major=..., minor=..., patch=...)] *)
Record APIVersion : Type := mkAPIVersion {
  major : Z;
  minor : Z;
  patch : Z
}.

(** Modelled from the spec: the enumeration [briar_pb2.BriarServiceStatus],
    whose declaration is not part of the module; the source names only its
    member [READY], the other members are the ones the specification
    lists for the liveness value. *)
Inductive BriarServiceStatus : Type :=
  | READY
  | DEGRADED
  | UNAVAILABLE.

End briar_pb2.

Module srvc_pb2.

(** [srvc_pb2.StatusReply(developer_name=..., service_name=...,
    version=..., status=...)] *)
Record StatusReply : Type := mkStatusReply {
  developer_name : string;
  service_name : string;
  version : briar_pb2.APIVersion;
  status : briar_pb2.BriarServiceStatus
}.

End srvc_pb2.

(** ** The process as the constructor can see it *)

Record World : Type := mkWorld {
  os_environ : gmap string string;   (* os.environ *)
  directories : gset string          (* the directories that exist *)
}.

(** ** class BRIARService *)

Module BRIARService.

Definition DEFAULT_WEIGHTS_DIR : string := "weights".
Definition DEFAULT_PREDICTOR_NAME : string := "predictor_model.dat".
Definition DEFAULT_REC_MODEL_NAME : string := "recognition_model.dat".

(** The attributes [__init__] sets on the instance. *)
Record Self (Values : Type) : Type := mkSelf {
  predictor_path : string;
  rec_model_path : string;
  options : option Values
}.
Arguments mkSelf {Values} _ _ _.
Arguments predictor_path {Values} _.
Arguments rec_model_path {Values} _.
Arguments options {Values} _.

Definition missing_briar_dir : string :=
  "The default Briar directory is not specified in your " +:+
  "system's environment variables.".

(** The defaults of the constructor: [options=None],
    [database_path="databases"]. *)
Definition default_options {Values} : option Values := None.
Definition default_database_path : string := "databases".

(** The constructor. The base class initialiser it calls first does
    nothing; [database_path] is received and not used. *)
Definition __init__ {Values} (w : World)
    (options : option Values) (database_path : string) : Py (Self Values) :=
  match os_environ w !! "BRIAR_DIR" with
  | None => raise (EnvironmentError missing_briar_dir)
  | Some briar_dir =>
      let predictor_path :=
        os_path_join briar_dir [DEFAULT_WEIGHTS_DIR; DEFAULT_PREDICTOR_NAME] in
      let rec_model_path :=
        os_path_join briar_dir [DEFAULT_WEIGHTS_DIR; DEFAULT_REC_MODEL_NAME] in
      ret (mkSelf predictor_path rec_model_path options)
  end.

Section Handlers.
Context {Values Req Ctx Reply : Type}.

Definition get_api_version (self : Self Values) (request : Req) (context : Ctx)
    : Py briar_pb2.APIVersion :=
  ret (briar_pb2.mkAPIVersion 1 2 3).

Definition status (self : Self Values) (request : Req) (context : Ctx)
    : Py srvc_pb2.StatusReply :=
  ret (srvc_pb2.mkStatusReply
         "[devname-here]"
         "This is a service"
         (briar_pb2.mkAPIVersion 1 2 3)
         briar_pb2.READY).

(** The three streaming handlers receive the request iterator, here the
    list of the items it will yield; they contain no [yield], so they are
    plain functions: the body runs, and raises, when the handler is
    called, before anything is read from the iterator. *)
Definition detect (self : Self Values) (req_iter : list Req) (context : Ctx)
    : Py (list Reply) :=
  raise NotImplementedError.

Definition extract (self : Self Values) (req_iter : list Req) (context : Ctx)
    : Py (list Reply) :=
  raise NotImplementedError.

Definition enroll (self : Self Values) (req_iter : list Req) (context : Ctx)
    : Py (list Reply) :=
  print "Enrolling..." >>>
  raise NotImplementedError.

Definition verify (self : Self Values) (request : Req) (context : Ctx)
    : Py Reply :=
  print "Verifying template matches" >>>
  raise NotImplementedError.

Definition search (self : Self Values) (request : Req) (context : Ctx)
    : Py Reply :=
  print "Searching Templates" >>>
  raise NotImplementedError.

Definition cluster (self : Self Values) (request : Req) (context : Ctx)
    : Py Reply :=
  raise NotImplementedError.

Definition enhance (self : Self Values) (request : Req) (context : Ctx)
    : Py Reply :=
  raise NotImplementedError.

Definition database_create (self : Self Values) (request : Req) (context : Ctx)
    : Py Reply :=
  raise NotImplementedError.

Definition database_load (self : Self Values) (request : Req) (context : Ctx)
    : Py Reply :=
  raise NotImplementedError.

Definition database_insert (self : Self Values) (request : Req) (context : Ctx)
    : Py Reply :=
  raise NotImplementedError.

Definition database_retrieve (self : Self Values) (request : Req) (context : Ctx)
    : Py Reply :=
  raise NotImplementedError.

Definition database_remove_templates (self : Self Values) (request : Req)
    (context : Ctx) : Py Reply :=
  raise NotImplementedError.

Definition database_names (self : Self Values) (request : Req) (context : Ctx)
    : Py Reply :=
  raise NotImplementedError.

Definition database_list_templates (self : Self Values) (request : Req)
    (context : Ctx) : Py Reply :=
  raise NotImplementedError.

Definition database_finalize (self : Self Values) (request : Req) (context : Ctx)
    : Py Reply :=
  raise NotImplementedError.

End Handlers.

End BRIARService.

(** ** The declared operations and the method each one runs

    The module's documentation: a line [rpc detect(...)] of the service
    declaration "will cause BRIARService.detect to run"; [stream] before the
    request makes the argument an iterator, and the handlers name it
    [req_iter] instead of [request]. *)

Module Rpc.

Inductive name : Type :=
  | get_api_version | status
  | detect | extract | enroll
  | verify | search | cluster | enhance
  | database_create | database_load | database_insert | database_retrieve
  | database_remove_templates | database_names | database_list_templates
  | database_finalize.

Definition all : list name :=
  [ get_api_version; status; detect; extract; enroll; verify; search;
    cluster; enhance; database_create; database_load; database_insert;
    database_retrieve; database_remove_templates; database_names;
    database_list_templates; database_finalize ].

Definition request_streaming (op : name) : bool :=
  match op with
  | detect | extract | enroll => true
  | _ => false
  end.

(** What the handler of [op] is given, and what it returns. *)
Definition Arg (Req : Type) (op : name) : Type :=
  if request_streaming op then list Req else Req.

Definition Result (Reply : Type) (op : name) : Type :=
  match op with
  | get_api_version => briar_pb2.APIVersion
  | status => srvc_pb2.StatusReply
  | detect | extract | enroll => list Reply
  | _ => Reply
  end.

Definition invoke {Values Req Ctx Reply} (self : BRIARService.Self Values)
    (op : name) : Arg Req op → Ctx → Py (Result Reply op) :=
  match op with
  | get_api_version => BRIARService.get_api_version self
  | status => BRIARService.status self
  | detect => BRIARService.detect self
  | extract => BRIARService.extract self
  | enroll => BRIARService.enroll self
  | verify => BRIARService.verify self
  | search => BRIARService.search self
  | cluster => BRIARService.cluster self
  | enhance => BRIARService.enhance self
  | database_create => BRIARService.database_create self
  | database_load => BRIARService.database_load self
  | database_insert => BRIARService.database_insert self
  | database_retrieve => BRIARService.database_retrieve self
  | database_remove_templates => BRIARService.database_remove_templates self
  | database_names => BRIARService.database_names self
  | database_list_templates => BRIARService.database_list_templates self
  | database_finalize => BRIARService.database_finalize self
  end.

End Rpc.

(** The replies a streaming call hands to the caller: the ones the handler
    yields, and none when the call raised. *)
Definition replies_of {A} (r : Outcome (list A)) : list A :=
  match r with
  | Return replies => replies
  | Raise _ => []
  end.

(** ** The gRPC server object, as far as [serve] touches it *)

Module futures.

Record ThreadPoolExecutor : Type := mkThreadPoolExecutor {
  max_workers : nat
}.

End futures.

Module grpc.

Record Server (Servicer : Type) : Type := mkServer {
  thread_pool : futures.ThreadPoolExecutor;
  options : list (string * Z);
  servicers : list Servicer;
  ports : list string;
  started : bool
}.
Arguments mkServer {Servicer} _ _ _ _ _.
Arguments thread_pool {Servicer} _.
Arguments options {Servicer} _.
Arguments servicers {Servicer} _.
Arguments ports {Servicer} _.
Arguments started {Servicer} _.

(** [grpc.server(thread_pool, options=options)] *)
Definition server {Servicer} (pool : futures.ThreadPoolExecutor)
    (opts : list (string * Z)) : Server Servicer :=
  mkServer pool opts [] [] false.

Definition add_servicer {Servicer} (servicer : Servicer) (srv : Server Servicer)
    : Server Servicer :=
  mkServer (thread_pool srv) (options srv) (servicers srv ++ [servicer])
           (ports srv) (started srv).

Definition add_insecure_port {Servicer} (srv : Server Servicer) (address : string)
    : Server Servicer :=
  mkServer (thread_pool srv) (options srv) (servicers srv)
           (ports srv ++ [address]) (started srv).

Definition start {Servicer} (srv : Server Servicer) : Server Servicer :=
  mkServer (thread_pool srv) (options srv) (servicers srv) (ports srv) true.

(** The value an option list gives a channel argument: the first pair
    with that key. *)
Fixpoint option_value (key : string) (opts : list (string * Z)) : option Z :=
  match opts with
  | [] => None
  | (k, v) :: rest => if bool_decide (k = key) then Some v else option_value key rest
  end.

End grpc.

(** ** def serve() *)

Section Serve.
Context {Values Req Ctx Reply : Type}.

Local Abbreviation Servicer := (BRIARService.Self Values).

(** The statements of [serve] up to the loop. [DEFAULT_SERVE_PORT] is
    imported from the package and taken as a parameter. *)
Definition serve_startup (w : World) (DEFAULT_SERVE_PORT : string)
    : Py (grpc.Server Servicer) :=
  let server :=
    grpc.server (futures.mkThreadPoolExecutor 10)
                [("grpc.max_send_message_length", 20000000%Z);
                 ("grpc.max_receive_message_length", 20000000%Z)] in
  let! servicer := BRIARService.__init__ w BRIARService.default_options
                                         BRIARService.default_database_path in
  let server := grpc.add_servicer servicer server in
  let server := grpc.add_insecure_port server DEFAULT_SERVE_PORT in
  let server := grpc.start server in
  print "Service Started.  " >>>
  ret server.

(** The process once the loop [while True: time.sleep(0.1)] is entered:
    the server object, the text printed so far, and the number of sleeps
    the main thread has finished. *)
Record Serving : Type := mkServing {
  server_of : grpc.Server Servicer;
  stdout_of : Stdout;
  sleeps : nat
}.

(** What happens while serving: the main thread finishes one more
    [time.sleep(0.1)], or a worker runs the handler of an operation a
    client called. *)
Inductive Event : Type :=
  | Slept
  | Called (op : Rpc.name) (arg : Rpc.Arg Req op) (context : Ctx).

(** A handler is given the servicer and the call, never the server. *)
Definition handle (servicers : list Servicer) (op : Rpc.name)
    (arg : Rpc.Arg Req op) (context : Ctx) (out : Stdout) : Stdout :=
  match servicers with
  | servicer :: _ => snd (Rpc.invoke (Reply := Reply) servicer op arg context out)
  | [] => out
  end.

Definition step (st : Serving) (ev : Event) : Serving :=
  match ev with
  | Slept => mkServing (server_of st) (stdout_of st) (S (sleeps st))
  | Called op arg context =>
      mkServing (server_of st)
                (handle (grpc.servicers (server_of st)) op arg context (stdout_of st))
                (sleeps st)
  end.

Definition run (schedule : list Event) (st : Serving) : Serving :=
  foldl step st schedule.

(** [serve()] never returns: its result is the exception that stopped the
    start-up, or else the state the process is in after any given
    sequence of events of the serving phase. *)
Definition serve (w : World) (DEFAULT_SERVE_PORT : string) (schedule : list Event)
    (out : Stdout) : Outcome Serving :=
  match serve_startup w DEFAULT_SERVE_PORT out with
  | (Return server, out') => Return (run schedule (mkServing server out' 0))
  | (Raise e, _) => Raise e
  end.

End Serve.

(** ** Items of a streamed exchange *)

(** Modelled from the spec: the request and reply messages of the streaming
    operations are declared outside the module; of an item the specification
    names its sequence index and its payload, and of a reply the index of
    the item it answers and whether it is marked failed. *)
Record Item : Type := mkItem {
  sequence_index : nat;
  payload : string
}.

Record ItemReply : Type := mkItemReply {
  reply_index : nat;
  failed : bool
}.

(** The operations whose handler is a placeholder. *)
Definition unimplemented (op : Rpc.name) : bool :=
  match op with
  | Rpc.get_api_version | Rpc.status => false
  | _ => true
  end.

(** What a placeholder prints before it raises. *)
Definition announcement (op : Rpc.name) : list string :=
  match op with
  | Rpc.enroll => ["Enrolling..."]
  | Rpc.verify => ["Verifying template matches"]
  | Rpc.search => ["Searching Templates"]
  | _ => []
  end.

(** ** Sample inputs *)

(** [BRIAR_DIR=/opt/briar] on a file system without any directory. *)
Definition bare_world : World :=
  mkWorld {["BRIAR_DIR" := "/opt/briar"]} ∅.

(** The instance [BRIARService()] is in that world. *)
Definition bare_service : BRIARService.Self unit :=
  BRIARService.mkSelf "/opt/briar/weights/predictor_model.dat"
                      "/opt/briar/weights/recognition_model.dat"
                      None.

(** [BRIAR_DIR] set to a root written with its final separator, and to the
    empty string. *)
Definition slash_world : World :=
  mkWorld {["BRIAR_DIR" := "/opt/briar/"]} ∅.

Definition empty_root_world : World :=
  mkWorld {["BRIAR_DIR" := ""]} ∅.

(** A stream whose sequence indices skip 2. *)
Definition gap_stream : list Item :=
  [mkItem 0 "frame-0"; mkItem 1 "frame-1"; mkItem 3 "frame-3"].

(** Three items, and an engine that fails on the second one only. *)
Definition three_items : list Item :=
  [mkItem 0 "face-0"; mkItem 1 "face-1"; mkItem 2 "face-2"].

Definition fails_on_second (item : Item) : bool :=
  bool_decide (sequence_index item = 1).

(** A stretch of the serving phase: sleeps of the main thread between a
    status query, an enrollment stream and a search. *)
Definition sample_schedule : list (@Event Item unit) :=
  [ Slept;
    Called Rpc.status (mkItem 0 "ping") tt;
    Called Rpc.enroll three_items tt;
    Slept;
    Called Rpc.search (mkItem 0 "probe") tt ].

(** What one event of the serving phase adds to standard output. *)
Definition printed_by {Req Ctx} (ev : @Event Req Ctx) : list string :=
  match ev with
  | Slept => []
  | Called op _ _ => announcement op
  end.

(** An environment that has other variables and no [BRIAR_DIR]. *)
Definition unset_world : World :=
  mkWorld {["HOME" := "/root"]} {["databases"]}.

(** * Properties *)

(** ** Strings and paths *)

Lemma app_String c s t : String c s +:+ t = String c (s +:+ t).
Proof. reflexivity. Qed.

Lemma app_empty_l t : "" +:+ t = t.
Proof. reflexivity. Qed.

Lemma string_app_assoc s t u : (s +:+ t) +:+ u = s +:+ (t +:+ u).
Proof.
  induction s as [|c s IH]; [reflexivity|].
  rewrite !app_String. by rewrite IH.
Qed.

Lemma endswith_sep_String c s :
  s ≠ "" → endswith_sep (String c s) = endswith_sep s.
Proof. destruct s; [done | reflexivity]. Qed.

Lemma endswith_sep_app s t :
  t ≠ "" → endswith_sep (s +:+ t) = endswith_sep t.
Proof.
  intros Ht. induction s as [|c s IH]; [reflexivity|].
  rewrite app_String, endswith_sep_String; [exact IH|].
  destruct s; [exact Ht | rewrite app_String; discriminate].
Qed.

Lemma endswith_sep_spec s :
  endswith_sep s = true ↔ ∃ p, s = p +:+ "/".
Proof.
  split.
  - induction s as [|c s IH]; [discriminate|].
    destruct s as [|d s].
    + simpl. intros Hc%bool_decide_eq_true. subst c. by exists "".
    + rewrite endswith_sep_String by discriminate.
      intros [p Hp]%IH. exists (String c p). by rewrite app_String, <- Hp.
  - intros [p ->]. by rewrite endswith_sep_app.
Qed.

Lemma is_empty_app s t : t ≠ "" → is_empty (s +:+ t) = false.
Proof. destruct s; [by destruct t | reflexivity]. Qed.

Example os_path_join_plain :
  os_path_join "/opt/briar" ["weights"; "predictor_model.dat"] =
    "/opt/briar/weights/predictor_model.dat".
Proof. reflexivity. Qed.

Example os_path_join_final_separator :
  os_path_join "/opt/briar/" ["weights"] = "/opt/briar/weights".
Proof. reflexivity. Qed.

Example os_path_join_empty_root :
  os_path_join "" ["weights"; "predictor_model.dat"] = "weights/predictor_model.dat".
Proof. reflexivity. Qed.

Example os_path_join_absolute_component :
  os_path_join "/opt/briar" ["/srv"; "weights"] = "/srv/weights".
Proof. reflexivity. Qed.

(** [os.path.join] of a root and two plain names. *)
Lemma os_path_join_root r d f :
  startswith_sep d = false → startswith_sep f = false →
  d ≠ "" → endswith_sep d = false →
  os_path_join r [d; f] =
    if is_empty r || endswith_sep r
    then r +:+ d +:+ "/" +:+ f
    else r +:+ "/" +:+ d +:+ "/" +:+ f.
Proof.
  intros Hd Hf Hne Hend. unfold os_path_join. simpl.
  unfold join_step at 2. rewrite Hd.
  assert (Hends : ∀ q, endswith_sep (q +:+ d) = false).
  { intros q. by rewrite endswith_sep_app. }
  destruct (is_empty r || endswith_sep r); unfold join_step; rewrite Hf.
  - rewrite is_empty_app, Hends by done. simpl. unfold sep.
    by rewrite !string_app_assoc.
  - replace (r +:+ sep +:+ d) with ((r +:+ sep) +:+ d)
      by apply string_app_assoc.
    rewrite is_empty_app, Hends by done. simpl. unfold sep.
    by rewrite !string_app_assoc.
Qed.

(** ** The version and status queries *)

(** C3: for every service instance, request and context, and whatever has
    been printed so far, [get_api_version] returns the same version message,
    major 1, minor 2, patch 3, and prints nothing. *)
Theorem get_api_version_constant :
  ∀ (Values Req Ctx : Type) (self : BRIARService.Self Values)
    (request : Req) (context : Ctx) (out : Stdout),
    BRIARService.get_api_version self request context out =
      (Return {| briar_pb2.major := 1; briar_pb2.minor := 2; briar_pb2.patch := 3 |},
       out).
Proof. reflexivity. Qed.

(** C4: for every service instance, request and context, [status] raises
    nothing: it returns a reply whose liveness value is [READY], one of
    [READY], [DEGRADED], [UNAVAILABLE], together with the developer name,
    the service name and the version. *)
Theorem status_always_replies :
  ∀ (Values Req Ctx : Type) (self : BRIARService.Self Values)
    (request : Req) (context : Ctx) (out : Stdout),
    ∃ reply : srvc_pb2.StatusReply,
      BRIARService.status self request context out = (Return reply, out)
      ∧ srvc_pb2.status reply = briar_pb2.READY
      ∧ srvc_pb2.status reply
          ∈ [briar_pb2.READY; briar_pb2.DEGRADED; briar_pb2.UNAVAILABLE]
      ∧ srvc_pb2.developer_name reply = "[devname-here]"
      ∧ srvc_pb2.service_name reply = "This is a service"
      ∧ srvc_pb2.version reply = briar_pb2.mkAPIVersion 1 2 3.
Proof.
  intros. eexists. split; [reflexivity|].
  simpl. repeat split. apply list_elem_of_here.
Qed.

(** C9: the version carried by the reply of [status] is the version
    [get_api_version] returns, whatever the instances, requests and
    contexts of the two calls; both are 1.2.3. *)
Theorem status_version_agrees :
  ∀ (Values Req Ctx Req' Ctx' : Type)
    (self self' : BRIARService.Self Values)
    (request : Req) (context : Ctx) (request' : Req') (context' : Ctx')
    (out out' : Stdout),
    ∃ (reply : srvc_pb2.StatusReply) (v : briar_pb2.APIVersion),
      fst (BRIARService.status self request context out) = Return reply
      ∧ fst (BRIARService.get_api_version self' request' context' out') = Return v
      ∧ srvc_pb2.version reply = v
      ∧ v = briar_pb2.mkAPIVersion 1 2 3.
Proof. intros. do 2 eexists. repeat split. Qed.

(** ** Construction *)

Lemma init_unset {Values} (w : World) (options : option Values)
    (database_path : string) (out : Stdout) :
  os_environ w !! "BRIAR_DIR" = None →
  BRIARService.__init__ w options database_path out =
    (Raise (EnvironmentError BRIARService.missing_briar_dir), out).
Proof. intros H. unfold BRIARService.__init__. by rewrite H. Qed.

Lemma init_set {Values} (w : World) (r : string) (options : option Values)
    (database_path : string) (out : Stdout) :
  os_environ w !! "BRIAR_DIR" = Some r →
  BRIARService.__init__ w options database_path out =
    (Return (BRIARService.mkSelf
               (os_path_join r ["weights"; "predictor_model.dat"])
               (os_path_join r ["weights"; "recognition_model.dat"])
               options), out).
Proof. intros H. unfold BRIARService.__init__. by rewrite H. Qed.

(** No handler raises the constructor's exception. *)
Lemma invoke_never_environment_error {Values Req Ctx Reply}
    (self : BRIARService.Self Values) (op : Rpc.name) (arg : Rpc.Arg Req op)
    (context : Ctx) (out : Stdout) (msg : string) :
  fst (Rpc.invoke (Reply := Reply) self op arg context out)
    ≠ Raise (EnvironmentError msg).
Proof. destruct op; discriminate. Qed.

(** C1, as the code has it: the constructor raises [EnvironmentError]
    exactly when [BRIAR_DIR] is not in the environment, and returns an
    instance exactly when it is, whichever directories exist and whatever
    [database_path] is; the failure stops [serve] during start-up, before
    any event of the serving phase; and no handler of any operation raises
    [EnvironmentError]. *)
Theorem init_fails_iff_briar_dir_unset :
  ∀ (Values Req Ctx Reply : Type) (w : World) (options : option Values)
    (database_path : string) (out : Stdout),
    (os_environ w !! "BRIAR_DIR" = None
       ↔ BRIARService.__init__ w options database_path out =
           (Raise (EnvironmentError BRIARService.missing_briar_dir), out))
    ∧ (is_Some (os_environ w !! "BRIAR_DIR")
       ↔ ∃ self, BRIARService.__init__ w options database_path out =
                   (Return self, out))
    ∧ (∀ (port : string) (schedule : list (@Event Req Ctx)),
         os_environ w !! "BRIAR_DIR" = None →
         serve (Values := Values) (Reply := Reply) w port schedule out =
           Raise (EnvironmentError BRIARService.missing_briar_dir))
    ∧ (∀ (self : BRIARService.Self Values) (op : Rpc.name)
         (arg : Rpc.Arg Req op) (context : Ctx) (out' : Stdout) (msg : string),
         fst (Rpc.invoke (Reply := Reply) self op arg context out')
           ≠ Raise (EnvironmentError msg)).
Proof.
  intros. split; [|split; [|split]].
  - split; [apply init_unset|].
    destruct (os_environ w !! "BRIAR_DIR") as [r|] eqn:E; [|done].
    by rewrite (init_set w r).
  - split.
    + intros [r Hr]. eexists. by apply init_set.
    + destruct (os_environ w !! "BRIAR_DIR") as [r|] eqn:E; [by eexists|].
      rewrite init_unset by done. by intros [self ?].
  - intros port schedule Hnone. unfold serve, serve_startup, bind.
    by rewrite init_unset.
  - intros. apply invoke_never_environment_error.
Qed.

(** C1, refuted as stated: with [BRIAR_DIR] set and no directory at all on
    the file system, so that the database directory is absent, the
    constructor called with its default arguments raises nothing and
    returns an instance. *)
Lemma init_without_database_directory :
  (BRIARService.default_database_path ∉ directories bare_world)
  ∧ ¬ (∃ (e : PyExc) (out' : Stdout),
         BRIARService.__init__ (Values := unit) bare_world
           BRIARService.default_options BRIARService.default_database_path []
         = (Raise e, out'))
  ∧ BRIARService.__init__ bare_world
      BRIARService.default_options BRIARService.default_database_path []
    = (Return bare_service, []).
Proof.
  assert (Hrun : BRIARService.__init__ bare_world
      BRIARService.default_options BRIARService.default_database_path []
    = (Return bare_service, [])).
  { by rewrite (init_set _ "/opt/briar"). }
  split; [simpl; set_solver|]. split; [|exact Hrun].
  rewrite Hrun. by intros (e & out' & ?).
Qed.

(** C10, as the code has it: when [BRIAR_DIR] is set to [r] the constructor
    returns an instance and prints nothing; its two paths are
    [os.path.join(r, "weights", name)], which is [r/weights/name] when [r]
    is not empty and has no final separator, and [r] directly followed by
    [weights/name] when [r] is empty or ends with a separator; the instance
    keeps [options] and nothing else, and the same instance is built
    whatever [database_path] is and whichever directories exist. *)
Theorem init_sets_model_paths :
  ∀ (Values : Type) (w : World) (r : string) (options : option Values)
    (database_path : string) (out : Stdout),
    os_environ w !! "BRIAR_DIR" = Some r →
    ∃ self : BRIARService.Self Values,
      BRIARService.__init__ w options database_path out = (Return self, out)
      ∧ BRIARService.predictor_path self =
          os_path_join r ["weights"; "predictor_model.dat"]
      ∧ BRIARService.rec_model_path self =
          os_path_join r ["weights"; "recognition_model.dat"]
      ∧ BRIARService.options self = options
      ∧ (r ≠ "" → (∀ p, r ≠ p +:+ "/") →
           BRIARService.predictor_path self = r +:+ "/weights/predictor_model.dat"
           ∧ BRIARService.rec_model_path self = r +:+ "/weights/recognition_model.dat")
      ∧ (r = "" ∨ (∃ p, r = p +:+ "/") →
           BRIARService.predictor_path self = r +:+ "weights/predictor_model.dat"
           ∧ BRIARService.rec_model_path self = r +:+ "weights/recognition_model.dat")
      ∧ (∀ (dirs : gset string) (database_path' : string),
           BRIARService.__init__ (mkWorld (os_environ w) dirs) options
                                 database_path' out = (Return self, out)).
Proof.
  intros Values w r options database_path out Hr.
  eexists. split; [by apply init_set|].
  cbn [BRIARService.predictor_path BRIARService.rec_model_path
       BRIARService.options].
  do 3 (split; [reflexivity|]).
  rewrite !os_path_join_root by done.
  split; [|split].
  - intros Hne Hend.
    assert (is_empty r || endswith_sep r = false) as ->; [|done].
    apply orb_false_intro; [by destruct r|].
    destruct (endswith_sep r) eqn:E; [|done].
    apply endswith_sep_spec in E as [p ->]. by destruct (Hend p).
  - intros Hcase.
    assert (is_empty r || endswith_sep r = true) as ->; [|done].
    destruct Hcase as [->|Hp]; [done|].
    apply endswith_sep_spec in Hp as ->. apply orb_true_r.
  - intros dirs database_path'. rewrite (init_set _ r) by done.
    by rewrite !os_path_join_root.
Qed.

(** The constructor in the sample world, through the theorem. *)
Lemma init_sets_model_paths_witness :
  os_environ bare_world !! "BRIAR_DIR" = Some "/opt/briar"
  ∧ ∃ self : BRIARService.Self unit,
      BRIARService.__init__ bare_world None "databases" [] = (Return self, [])
      ∧ BRIARService.predictor_path self = "/opt/briar/weights/predictor_model.dat"
      ∧ BRIARService.rec_model_path self = "/opt/briar/weights/recognition_model.dat".
Proof.
  split; [reflexivity|].
  destruct (init_sets_model_paths unit bare_world "/opt/briar" None "databases" []
              eq_refl)
    as (self & Hrun & _ & _ & _ & Hplain & _).
  exists self. split; [exact Hrun|].
  apply Hplain; [discriminate|].
  intros p Hp.
  assert (endswith_sep "/opt/briar" = true) as Hend
    by (apply endswith_sep_spec; by exists p).
  discriminate Hend.
Defined.

(** C10, refuted as stated: with [BRIAR_DIR=/opt/briar/] the predictor path
    is [/opt/briar/weights/predictor_model.dat], not the root followed by
    [/weights/predictor_model.dat]; with [BRIAR_DIR] set to the empty
    string it is the relative path [weights/predictor_model.dat], not
    [/weights/predictor_model.dat]. *)
Lemma init_paths_not_root_slash_weights :
  (∃ self : BRIARService.Self unit,
     BRIARService.__init__ slash_world None "databases" [] = (Return self, [])
     ∧ BRIARService.predictor_path self = "/opt/briar/weights/predictor_model.dat"
     ∧ BRIARService.predictor_path self
         ≠ "/opt/briar/" +:+ "/weights/predictor_model.dat"
     ∧ BRIARService.rec_model_path self
         ≠ "/opt/briar/" +:+ "/weights/recognition_model.dat")
  ∧ (∃ self : BRIARService.Self unit,
       BRIARService.__init__ empty_root_world None "databases" [] = (Return self, [])
       ∧ BRIARService.predictor_path self = "weights/predictor_model.dat"
       ∧ BRIARService.predictor_path self ≠ "" +:+ "/weights/predictor_model.dat"
       ∧ BRIARService.rec_model_path self ≠ "" +:+ "/weights/recognition_model.dat").
Proof.
  split; eexists; (split; [reflexivity|]); simpl; repeat split; discriminate.
Qed.

(** ** The placeholder handlers *)

Lemma unimplemented_spec (op : Rpc.name) :
  unimplemented op = true ↔ op ≠ Rpc.get_api_version ∧ op ≠ Rpc.status.
Proof.
  destruct op; simpl;
    (split; [intros ?; split; congruence | intros [? ?]; congruence]).
Qed.

(** C2, as the code has it: for every operation other than
    [get_api_version] and [status], calling the handler, on any instance,
    argument and context, ends by raising [NotImplementedError]; it returns
    no reply value, and what it printed first (a line for [enroll],
    [verify] and [search], nothing for the others) stays printed. *)
Theorem unimplemented_handler_raises :
  ∀ (Values Req Ctx Reply : Type) (self : BRIARService.Self Values)
    (op : Rpc.name) (arg : Rpc.Arg Req op) (context : Ctx) (out : Stdout),
    unimplemented op = true →
    Rpc.invoke (Reply := Reply) self op arg context out =
      (Raise NotImplementedError, (out ++ announcement op)%list)
    ∧ ¬ (∃ (reply : Rpc.Result Reply op) (out' : Stdout),
           Rpc.invoke self op arg context out = (Return reply, out')).
Proof.
  intros Values Req Ctx Reply self op arg context out Hop.
  assert (Hrun : Rpc.invoke (Reply := Reply) self op arg context out =
                   (Raise NotImplementedError, (out ++ announcement op)%list)).
  { destruct op; try discriminate Hop; simpl;
      rewrite ?app_nil_r; reflexivity. }
  split; [exact Hrun|]. rewrite Hrun. by intros (reply & out' & ?).
Qed.

(** [verify] on the sample instance, through the theorem. *)
Lemma unimplemented_handler_raises_witness :
  unimplemented Rpc.verify = true
  ∧ Rpc.invoke (Req := string) (Reply := ItemReply)
      bare_service Rpc.verify "probe" tt [] =
      (Raise NotImplementedError, ["Verifying template matches"]).
Proof.
  split; [reflexivity|].
  exact (proj1 (unimplemented_handler_raises unit string unit ItemReply
                  bare_service Rpc.verify "probe" tt [] eq_refl)).
Defined.

(** C2, refuted as stated: called on a one-item stream, [detect] gives the
    caller no reply value, structured or not: the call ends in the raised
    exception; and so does [verify] on a request. *)
Lemma detect_returns_no_reply :
  ¬ (∃ (replies : list ItemReply) (out' : Stdout),
       BRIARService.detect bare_service [mkItem 0 "frame-0"] tt [] =
         (Return replies, out'))
  ∧ BRIARService.detect (Reply := ItemReply)
      bare_service [mkItem 0 "frame-0"] tt [] = (Raise NotImplementedError, [])
  ∧ ¬ (∃ (reply : ItemReply) (out' : Stdout),
         BRIARService.verify bare_service "probe" tt [] = (Return reply, out'))
  ∧ BRIARService.verify (Reply := ItemReply) bare_service "probe" tt [] =
      (Raise NotImplementedError, ["Verifying template matches"]).
Proof.
  repeat split; try reflexivity; by intros (reply & out' & ?).
Qed.

(** ** Streams given to the placeholders *)

(** C5, as the code has it: each of the three streaming handlers, called
    with a stream whose sequence indices are 0, 1, 3, raises
    [NotImplementedError] at the call, before any item is read ([enroll]
    after printing its line); no reply is produced for any item, so none
    for index 1 and none for index 3, and the exception is not a
    [SequenceViolation]. *)
Theorem gap_stream_not_implemented :
  ∀ (Values Ctx : Type) (self : BRIARService.Self Values)
    (req_iter : list Item) (context : Ctx) (out : Stdout),
    sequence_index <$> req_iter = [0; 1; 3] →
    (BRIARService.detect (Reply := ItemReply) self req_iter context out =
       (Raise NotImplementedError, out)
     ∧ BRIARService.extract (Reply := ItemReply) self req_iter context out =
       (Raise NotImplementedError, out)
     ∧ BRIARService.enroll (Reply := ItemReply) self req_iter context out =
       (Raise NotImplementedError, (out ++ ["Enrolling..."])%list))
    ∧ (∀ handler : list Item → Ctx → Py (list ItemReply),
         handler ∈ [BRIARService.detect self; BRIARService.extract self;
                    BRIARService.enroll self] →
         replies_of (fst (handler req_iter context out)) = []
         ∧ (∀ reply, reply ∈ replies_of (fst (handler req_iter context out)) →
                     reply_index reply ≠ 3)
         ∧ (∀ e, fst (handler req_iter context out) = Raise e →
                 exc_name e = "NotImplementedError")).
Proof.
  intros Values Ctx self req_iter context out _.
  split; [by repeat split|].
  intros handler Hin.
  assert (fst (handler req_iter context out) = Raise NotImplementedError) as ->.
  { repeat (apply elem_of_cons in Hin as [->|Hin]; [reflexivity|]).
    by apply elem_of_nil in Hin. }
  simpl. split; [done|]. split.
  - by intros reply ?%elem_of_nil.
  - by intros e [= <-].
Qed.

(** [detect] on the sample stream with a gap, through the theorem. *)
Lemma gap_stream_not_implemented_witness :
  sequence_index <$> gap_stream = [0; 1; 3]
  ∧ BRIARService.detect (Reply := ItemReply) bare_service gap_stream tt [] =
      (Raise NotImplementedError, []).
Proof.
  split; [reflexivity|].
  exact (proj1 (proj1 (gap_stream_not_implemented unit unit bare_service
                         gap_stream tt [] eq_refl))).
Defined.

(** C5, refuted as stated: [detect] on the stream with indices 0, 1, 3
    emits no reply for item 1 (it emits none at all) and stops with
    [NotImplementedError], whose name is not [SequenceViolation]. *)
Lemma detect_gap_stream_no_sequence_violation :
  ¬ (∃ reply : ItemReply,
       reply ∈ replies_of (fst (BRIARService.detect bare_service gap_stream tt []))
       ∧ reply_index reply = 1)
  ∧ ¬ (∃ e : PyExc,
         fst (BRIARService.detect (Reply := ItemReply) bare_service gap_stream tt [])
           = Raise e
         ∧ exc_name e = "SequenceViolation")
  ∧ sequence_index <$> gap_stream = [0; 1; 3]
  ∧ BRIARService.detect (Reply := ItemReply) bare_service gap_stream tt [] =
      (Raise NotImplementedError, []).
Proof.
  repeat split.
  - by intros (reply & ?%elem_of_nil & _).
  - by intros (e & [= <-] & ?).
Qed.

(** C6, as the code has it: on every three-item stream, with any engine
    and so also one that would fail on exactly one of the items, [extract]
    raises [NotImplementedError] at the call; the caller receives no reply
    (not three), and none marked failed. *)
Theorem extract_three_items_not_implemented :
  ∀ (Values Ctx : Type) (self : BRIARService.Self Values)
    (engine_fails : Item → bool)
    (req_iter : list Item) (context : Ctx) (out : Stdout),
    length req_iter = 3 →
    length (filter (λ item, engine_fails item = true) req_iter) = 1 →
    BRIARService.extract (Reply := ItemReply) self req_iter context out =
      (Raise NotImplementedError, out)
    ∧ length (replies_of (fst (BRIARService.extract (Reply := ItemReply)
                                 self req_iter context out))) = 0
    ∧ filter (λ reply, failed reply = true)
        (replies_of (fst (BRIARService.extract self req_iter context out))) = [].
Proof. by intros. Qed.

(** [extract] on the three sample items, through the theorem. *)
Lemma extract_three_items_not_implemented_witness :
  (length three_items = 3
   ∧ length (filter (λ item, fails_on_second item = true) three_items) = 1)
  ∧ BRIARService.extract (Reply := ItemReply) bare_service three_items tt [] =
      (Raise NotImplementedError, []).
Proof.
  split; [split; reflexivity|].
  exact (proj1 (extract_three_items_not_implemented unit unit bare_service
                  fails_on_second three_items tt [] eq_refl eq_refl)).
Defined.

(** C6, refuted as stated: on three items of which the engine would fail
    on the second only, [extract] hands the caller no reply, so not three,
    and not exactly one marked failed. *)
Lemma extract_three_items_gives_no_reply :
  (length three_items = 3
   ∧ length (filter (λ item, fails_on_second item = true) three_items) = 1)
  ∧ length (replies_of (fst (BRIARService.extract (Reply := ItemReply)
                               bare_service three_items tt []))) ≠ 3
  ∧ length (filter (λ reply, failed reply = true)
              (replies_of (fst (BRIARService.extract
                                  bare_service three_items tt [])))) ≠ 1.
Proof. repeat split; discriminate. Qed.

(** ** The serving phase *)

Section ServeFacts.
Context {Values Req Ctx Reply : Type}.

Local Abbreviation Serving' := (@Serving Values).
Local Abbreviation Event' := (@Event Req Ctx).

Lemma step_server_of (st : Serving') (ev : Event') :
  server_of (step (Reply := Reply) st ev) = server_of st.
Proof. by destruct ev. Qed.

Lemma run_server_of (schedule : list Event') (st : Serving') :
  server_of (run (Reply := Reply) schedule st) = server_of st.
Proof.
  revert st. induction schedule as [|ev schedule IH]; intros st; [done|].
  unfold run in *. simpl. by rewrite IH, step_server_of.
Qed.

Lemma serve_startup_set (w : World) (r port : string) (out : Stdout) :
  os_environ w !! "BRIAR_DIR" = Some r →
  serve_startup (Values := Values) w port out =
    (Return
       (grpc.mkServer
          (futures.mkThreadPoolExecutor 10)
          [("grpc.max_send_message_length", 20000000%Z);
           ("grpc.max_receive_message_length", 20000000%Z)]
          [BRIARService.mkSelf
             (os_path_join r ["weights"; "predictor_model.dat"])
             (os_path_join r ["weights"; "recognition_model.dat"])
             None]
          [port]
          true),
     (out ++ ["Service Started.  "])%list).
Proof.
  intros Hr. unfold serve_startup, bind.
  by rewrite (init_set w r).
Qed.

End ServeFacts.

(** C8: when the start-up succeeds ([BRIAR_DIR] is set), [serve] builds one
    server object with a pool of 10 workers and both message-size options
    equal to 20000000, starts it, and after every sequence of events of the
    serving phase (sleeps of the main thread and handler calls, in any
    order and number) the server object is still that same one: the pool
    size and the two options keep their start-up values. *)
Theorem serve_configuration_fixed :
  ∀ (Values Req Ctx Reply : Type) (w : World) (port : string) (out : Stdout),
    is_Some (os_environ w !! "BRIAR_DIR") →
    ∃ server : grpc.Server (BRIARService.Self Values),
      fst (serve_startup w port out) = Return server
      ∧ futures.max_workers (grpc.thread_pool server) = 10
      ∧ grpc.option_value "grpc.max_send_message_length" (grpc.options server)
          = Some 20000000%Z
      ∧ grpc.option_value "grpc.max_receive_message_length" (grpc.options server)
          = Some 20000000%Z
      ∧ grpc.started server = true
      ∧ (∀ schedule : list (@Event Req Ctx),
           ∃ st : @Serving Values,
             serve (Reply := Reply) w port schedule out = Return st
             ∧ server_of st = server
             ∧ ∀ more : list (@Event Req Ctx),
                 server_of (run (Reply := Reply) more st) = server).
Proof.
  intros Values Req Ctx Reply w port out [r Hr].
  eexists. rewrite (serve_startup_set w r) by done.
  split; [reflexivity|]. do 4 (split; [reflexivity|]).
  intros schedule. unfold serve. rewrite (serve_startup_set w r) by done.
  eexists. split; [reflexivity|].
  split; [by rewrite run_server_of|].
  intros more. by rewrite !run_server_of.
Qed.

(** [serve] in the sample world over the sample schedule, through the
    theorem. *)
Lemma serve_configuration_fixed_witness :
  is_Some (os_environ bare_world !! "BRIAR_DIR")
  ∧ ∃ st : @Serving unit,
      serve (Reply := ItemReply) bare_world "0.0.0.0:50051" sample_schedule []
        = Return st
      ∧ futures.max_workers (grpc.thread_pool (server_of st)) = 10
      ∧ grpc.option_value "grpc.max_send_message_length"
          (grpc.options (server_of st)) = Some 20000000%Z
      ∧ grpc.option_value "grpc.max_receive_message_length"
          (grpc.options (server_of st)) = Some 20000000%Z.
Proof.
  assert (Hset : is_Some (os_environ bare_world !! "BRIAR_DIR"))
    by (eexists; reflexivity).
  split; [exact Hset|].
  destruct (serve_configuration_fixed unit Item unit ItemReply bare_world
              "0.0.0.0:50051" [] Hset)
    as (server & _ & Hworkers & Hsend & Hrecv & _ & Hall).
  destruct (Hall sample_schedule) as (st & Hrun & Hserver & _).
  exists st. rewrite Hserver. by repeat split.
Defined.

(** The sample schedule, run: two sleeps, and the lines of the start-up,
    of [enroll] and of [search] on standard output. *)
Example serve_sample_schedule :
  serve (Values := unit) (Reply := ItemReply)
        bare_world "0.0.0.0:50051" sample_schedule [] =
    Return
      (mkServing
         (grpc.mkServer (futures.mkThreadPoolExecutor 10)
            [("grpc.max_send_message_length", 20000000%Z);
             ("grpc.max_receive_message_length", 20000000%Z)]
            [bare_service] ["0.0.0.0:50051"] true)
         ["Service Started.  "; "Enrolling..."; "Searching Templates"]
         2).
Proof. reflexivity. Qed.

(** ** Further properties of the handlers *)

(** X1: calling the handler of an operation returns a value exactly when
    the operation is [get_api_version] or [status], and raises exactly when
    it is any other one; the only exception a handler ever raises is
    [NotImplementedError]. *)
Theorem invoke_returns_iff_implemented :
  ∀ (Values Req Ctx Reply : Type) (self : BRIARService.Self Values)
    (op : Rpc.name) (arg : Rpc.Arg Req op) (context : Ctx) (out : Stdout),
    ((∃ (v : Rpc.Result Reply op) (out' : Stdout),
        Rpc.invoke self op arg context out = (Return v, out'))
       ↔ op = Rpc.get_api_version ∨ op = Rpc.status)
    ∧ ((∃ (e : PyExc) (out' : Stdout),
          Rpc.invoke (Reply := Reply) self op arg context out = (Raise e, out'))
         ↔ op ≠ Rpc.get_api_version ∧ op ≠ Rpc.status)
    ∧ (∀ (e : PyExc) (out' : Stdout),
         Rpc.invoke (Reply := Reply) self op arg context out = (Raise e, out') →
         e = NotImplementedError).
Proof.
  intros. split; [|split].
  - split.
    + intros (v & out' & Hrun). destruct op; try (by left); try (by right);
        discriminate Hrun.
    + intros [-> | ->]; by do 2 eexists.
  - split.
    + intros (e & out' & Hrun). destruct op; try discriminate Hrun; by split.
    + intros [H1 H2]. destruct op; try done; by do 2 eexists.
  - intros e out' Hrun. destruct op; try discriminate Hrun; by inversion Hrun.
Qed.

(** X2: a handler call never removes or rewrites what was printed before
    it: [enroll], [verify] and [search] append exactly one line each, and
    the handlers of the fourteen other operations print nothing. *)
Theorem invoke_output :
  ∀ (Values Req Ctx Reply : Type) (self : BRIARService.Self Values)
    (op : Rpc.name) (arg : Rpc.Arg Req op) (context : Ctx) (out : Stdout),
    snd (Rpc.invoke (Reply := Reply) self op arg context out) =
      match op with
      | Rpc.enroll => (out ++ ["Enrolling..."])%list
      | Rpc.verify => (out ++ ["Verifying template matches"])%list
      | Rpc.search => (out ++ ["Searching Templates"])%list
      | _ => out
      end.
Proof. intros. by destruct op. Qed.

(** X3: no handler reads the instance, its argument or the context: for
    each operation, two calls that start from the same printed text end
    the same way, whatever instance they are made on (also one of a
    service with other option values) and whatever request or stream
    (also an empty one) and context they carry. *)
Theorem invoke_ignores_inputs :
  ∀ (Values Values' Req Ctx Ctx' Reply : Type)
    (self : BRIARService.Self Values) (self' : BRIARService.Self Values')
    (op : Rpc.name) (arg arg' : Rpc.Arg Req op)
    (context : Ctx) (context' : Ctx') (out : Stdout),
    Rpc.invoke (Reply := Reply) self op arg context out =
      Rpc.invoke (Reply := Reply) self' op arg' context' out.
Proof. intros. by destruct op. Qed.

(** ** Further properties of the constructor *)

Lemma os_path_join_snoc (a : string) (p : list string) (b : string) :
  os_path_join a (p ++ [b]) = join_step (os_path_join a p) b.
Proof. unfold os_path_join. by rewrite foldl_app. Qed.

Lemma join_step_plain_prefix (path b : string) :
  startswith_sep b = false → ∃ t, join_step path b = path +:+ t.
Proof.
  intros Hb. unfold join_step. rewrite Hb.
  destruct (is_empty path || endswith_sep path); eauto.
Qed.

(** X4: whatever the root [r] in [BRIAR_DIR] is (relative, absolute, empty,
    with or without a final separator), the two model paths of the
    instance are the two file names inside one and the same directory,
    [os.path.join(r, "weights")], which extends [r]; the two paths are
    never equal. *)
Theorem init_paths_same_directory :
  ∀ (Values : Type) (w : World) (r : string) (options : option Values)
    (database_path : string) (out : Stdout),
    os_environ w !! "BRIAR_DIR" = Some r →
    ∃ self : BRIARService.Self Values,
      BRIARService.__init__ w options database_path out = (Return self, out)
      ∧ BRIARService.predictor_path self =
          os_path_join r ["weights"] +:+ "/predictor_model.dat"
      ∧ BRIARService.rec_model_path self =
          os_path_join r ["weights"] +:+ "/recognition_model.dat"
      ∧ (∃ t, os_path_join r ["weights"] = r +:+ t)
      ∧ BRIARService.predictor_path self ≠ BRIARService.rec_model_path self.
Proof.
  intros Values w r options database_path out Hr.
  eexists. split; [by apply init_set|].
  cbn [BRIARService.predictor_path BRIARService.rec_model_path].
  assert (Hfile : ∀ f, startswith_sep f = false →
            os_path_join r ["weights"; f] =
              os_path_join r ["weights"] +:+ "/" +:+ f).
  { intros f Hf. change ["weights"; f] with (["weights"] ++ [f])%list.
    rewrite os_path_join_snoc. unfold join_step at 1. rewrite Hf.
    assert (os_path_join r ["weights"] = join_step r "weights") as -> by done.
    unfold join_step. simpl startswith_sep. cbv iota.
    destruct (is_empty r || endswith_sep r).
    - by rewrite is_empty_app, endswith_sep_app.
    - replace (r +:+ sep +:+ "weights") with ((r +:+ sep) +:+ "weights")
        by apply string_app_assoc.
      by rewrite is_empty_app, endswith_sep_app. }
  rewrite !Hfile by done.
  split; [done|]. split; [done|]. split.
  - by apply (join_step_plain_prefix r "weights").
  - intros Heq. apply (inj (String.app _)) in Heq. discriminate Heq.
Qed.

(** The paths for a root written with its final separator, through the
    theorem. *)
Lemma init_paths_same_directory_witness :
  os_environ slash_world !! "BRIAR_DIR" = Some "/opt/briar/"
  ∧ ∃ self : BRIARService.Self unit,
      BRIARService.__init__ slash_world None "databases" [] = (Return self, [])
      ∧ BRIARService.predictor_path self ≠ BRIARService.rec_model_path self.
Proof.
  split; [reflexivity|].
  destruct (init_paths_same_directory unit slash_world "/opt/briar/" None
              "databases" [] eq_refl)
    as (self & Hrun & _ & _ & _ & Hne).
  exists self. by split.
Defined.

(** X5: the constructor reads nothing of the world but the value of
    [BRIAR_DIR]: in two worlds that agree on it (and may differ in every
    other variable and in every directory), with any two database paths,
    it ends the same way. *)
Theorem init_reads_only_briar_dir :
  ∀ (Values : Type) (w w' : World) (options : option Values)
    (database_path database_path' : string) (out : Stdout),
    os_environ w !! "BRIAR_DIR" = os_environ w' !! "BRIAR_DIR" →
    BRIARService.__init__ w options database_path out =
      BRIARService.__init__ w' options database_path' out.
Proof.
  intros Values w w' options database_path database_path' out Heq.
  unfold BRIARService.__init__. by rewrite Heq.
Qed.

(** Two worlds without [BRIAR_DIR], through the theorem. *)
Lemma init_reads_only_briar_dir_witness :
  os_environ unset_world !! "BRIAR_DIR" = os_environ (mkWorld ∅ ∅) !! "BRIAR_DIR"
  ∧ BRIARService.__init__ (Values := unit) unset_world None "databases" [] =
      BRIARService.__init__ (mkWorld ∅ ∅) None "elsewhere" [].
Proof.
  split; [reflexivity|].
  exact (init_reads_only_briar_dir unit unset_world (mkWorld ∅ ∅) None
           "databases" "elsewhere" [] eq_refl).
Defined.

(** ** Further properties of [serve] *)

Section ServeOutput.
Context {Values Req Ctx Reply : Type}.

Lemma handle_output (servicer : BRIARService.Self Values)
    (rest : list (BRIARService.Self Values)) (op : Rpc.name)
    (arg : Rpc.Arg Req op) (context : Ctx) (out : Stdout) :
  handle (Reply := Reply) (servicer :: rest) op arg context out =
    (out ++ announcement op)%list.
Proof. destruct op; simpl; by rewrite ?app_nil_r. Qed.

Lemma run_stdout_of (schedule : list (@Event Req Ctx)) (st : @Serving Values) :
  grpc.servicers (server_of st) ≠ [] →
  stdout_of (run (Reply := Reply) schedule st) =
    (stdout_of st ++ concat (printed_by <$> schedule))%list.
Proof.
  revert st. induction schedule as [|ev schedule IH]; intros st Hne.
  { simpl. by rewrite app_nil_r. }
  unfold run in *. simpl foldl. rewrite IH by (by rewrite step_server_of).
  rewrite fmap_cons. simpl concat. rewrite app_assoc. f_equal.
  destruct ev as [|op arg context]; simpl.
  - by rewrite app_nil_r.
  - destruct (grpc.servicers (server_of st)) as [|servicer rest]; [done|].
    apply handle_output.
Qed.

End ServeOutput.


(** X7: once the start-up has succeeded, the text on standard output after
    any sequence of events of the serving phase is the text that was
    there, then "Service Started.  ", then, in the order of the calls, the
    line of each call of [enroll], [verify] and [search]; sleeps and the
    calls of the other operations add nothing, and nothing printed is ever
    lost. *)
Theorem serve_output_trace :
  ∀ (Values Req Ctx Reply : Type) (w : World) (port : string)
    (schedule : list (@Event Req Ctx)) (out : Stdout),
    is_Some (os_environ w !! "BRIAR_DIR") →
    ∃ st : @Serving Values,
      serve (Reply := Reply) w port schedule out = Return st
      ∧ stdout_of st =
          (out ++ ["Service Started.  "] ++ concat (printed_by <$> schedule))%list.
Proof.
  intros Values Req Ctx Reply w port schedule out [r Hr].
  unfold serve. rewrite (serve_startup_set w r) by done.
  eexists. split; [reflexivity|].
  rewrite run_stdout_of by done. simpl stdout_of. by rewrite <- app_assoc.
Qed.

(** The sample schedule in the sample world, through the theorem. *)
Lemma serve_output_trace_witness :
  is_Some (os_environ bare_world !! "BRIAR_DIR")
  ∧ ∃ st : @Serving unit,
      serve (Reply := ItemReply) bare_world "0.0.0.0:50051" sample_schedule []
        = Return st
      ∧ stdout_of st =
          ["Service Started.  "; "Enrolling..."; "Searching Templates"].
Proof.
  assert (Hset : is_Some (os_environ bare_world !! "BRIAR_DIR"))
    by (eexists; reflexivity).
  split; [exact Hset|].
  destruct (serve_output_trace unit Item unit ItemReply bare_world
              "0.0.0.0:50051" sample_schedule [] Hset) as (st & Hrun & Hout).
  exists st. split; [exact Hrun|]. rewrite Hout. reflexivity.
Defined.
